(** * Type-tag ordering oracle of [sorting/compare_lookup.py]

    The script derives, for every ordered pair of the sixteen ion type
    tags, the relation that the tuple comparator has to dispatch on.  This
    file embeds the script (tags are Python integers, the base order is a
    dictionary of sets, a dictionary subscript may raise [KeyError]) and
    states the properties of the derived 16 x 16 grid. *)

From stdpp Require Import gmap strings list list_numbers.

Local Open Scope Z_scope.

(** ** Type tags (lines 5-20) *)

Definition NULL       : Z := 0x00.
Definition BOOL       : Z := 0x01.
Definition UINT       : Z := 0x02.
Definition INT        : Z := 0x03.
Definition FLOAT      : Z := 0x04.
Definition DECIMAL    : Z := 0x05.
Definition TIMESTAMP  : Z := 0x06.
Definition SYMBOL     : Z := 0x07.
Definition STRING     : Z := 0x08.
Definition CLOB       : Z := 0x09.
Definition BLOB       : Z := 0x0a.
Definition LIST       : Z := 0x0b.
Definition SEXP       : Z := 0x0c.
Definition STRUCT     : Z := 0x0d.
Definition ANNOTATION : Z := 0x0e.
Definition RESERVED   : Z := 0x0f.

(** A tag of the closed enumeration: an integer in [0, 15]. *)
Definition TypeTag (t : Z) : Prop := 0 ≤ t ≤ 15.

(** ** The hand-written base order (lines 22-34): a dict from a tag to the
    set of tags that sort unconditionally after it. *)

Definition strict_less_lookup : gmap Z (gset Z) :=
  list_to_map [
    (BOOL, list_to_set [UINT; INT; FLOAT; DECIMAL; TIMESTAMP; SYMBOL; STRING; CLOB; BLOB; LIST; SEXP; STRUCT]);
    (UINT, list_to_set [TIMESTAMP; SYMBOL; STRING; CLOB; BLOB; LIST; SEXP; STRUCT]);
    (INT, list_to_set [UINT; TIMESTAMP; SYMBOL; STRING; CLOB; BLOB; LIST; SEXP; STRUCT]);
    (FLOAT, list_to_set [TIMESTAMP; SYMBOL; STRING; CLOB; BLOB; LIST; SEXP; STRUCT]);
    (DECIMAL, list_to_set [TIMESTAMP; SYMBOL; STRING; CLOB; BLOB; LIST; SEXP; STRUCT]);
    (TIMESTAMP, list_to_set [SYMBOL; STRING; CLOB; BLOB; LIST; SEXP; STRUCT]);
    (STRING, list_to_set [STRING; CLOB; BLOB; LIST; SEXP; STRUCT]);
    (CLOB, list_to_set [LIST; SEXP; STRUCT]);
    (BLOB, list_to_set [LIST; SEXP; STRUCT]);
    (LIST, list_to_set [STRUCT]);
    (SEXP, list_to_set [STRUCT])
  ].

(** ** Relation vocabulary (lines 36-40): plain strings, pasted verbatim
    into the generated Go array literal. *)

Definition Less                  : string := "alwaysLess".
Definition Greater               : string := "alwaysGreater".
Definition CompareSameType       : string := "compareSameType".
Definition CompareDifferentTypes : string := "compareDifferentTypes".
Definition Invalid               : string := "unsupportedRelation".

(** ** Computations that may raise

    The only exception the script can meet is the [KeyError] of a dict
    subscript; [py A] is a computation that returns an [A] or raises. *)

Inductive exn : Type :=
  | KeyError (key : Z).

Inductive py (A : Type) : Type :=
  | Return (a : A)
  | Raise (e : exn).
Arguments Return {A} a.
Arguments Raise {A} e.

#[global] Instance exn_eq_dec : EqDecision exn.
Proof. solve_decision. Defined.

#[global] Instance py_eq_dec `{EqDecision A} : EqDecision (py A).
Proof. solve_decision. Defined.

#[global] Instance py_ret : MRet py := λ A a, Return a.

#[global] Instance py_bind : MBind py := λ A B k m,
  match m with
  | Return a => k a
  | Raise e => Raise e
  end.

(** [try: m except KeyError: h] *)
Definition try_except {A} (m : py A) (h : py A) : py A :=
  match m with
  | Return a => Return a
  | Raise (KeyError _) => h
  end.

(** [d[k]] on a dict *)
Definition getitem {V} (d : gmap Z V) (k : Z) : py V :=
  match d !! k with
  | Some v => Return v
  | None => Raise (KeyError k)
  end.

(** [for x in xs: yield f(x)], collected: stops at the first raise. *)
Fixpoint for_yield {A B} (f : A → py B) (xs : list A) : py (list B) :=
  match xs with
  | [] => Return []
  | x :: xs' => y ← f x ; ys ← for_yield f xs' ; Return (y :: ys)
  end.

(** [range(n)] *)
Definition range (n : nat) : list Z := Z.of_nat <$> seq 0 n.

(** ** The oracle (lines 43-76) *)

Definition not_supported (t : Z) : bool :=
  bool_decide (t ∈ [SYMBOL; SEXP; STRUCT; ANNOTATION; RESERVED]).

Definition numeric (t : Z) : bool :=
  bool_decide (t ∈ [UINT; INT; FLOAT; DECIMAL]).

Definition strict_less_aux (type1 type2 : Z) : py bool :=
  try_except
    (s ← getitem strict_less_lookup type1 ; Return (bool_decide (type2 ∈ s)))
    (Return false).

Definition relation (type1 type2 : Z) : py string :=
  if not_supported type1 || not_supported type2 then Return Invalid
  else if bool_decide (type1 = type2) then Return CompareSameType
  else
    less12 ← strict_less_aux type1 type2 ;
    if (less12 : bool) then Return Less
    else
      less21 ← strict_less_aux type2 type1 ;
      if (less21 : bool) then Return Greater
      else Return CompareDifferentTypes.

(** The generator, drained into a list as [main] does with
    [list(relations())]: the inner loop's yields of each outer iteration,
    one after the other. *)
Definition relations : py (list string) :=
  rows ← for_yield (λ type1, for_yield (λ type2, relation type1 type2) (range 16))
                   (range 16) ;
  Return (mjoin (rows : list (list string))).

(** ** The script's output (lines 79-82)

    [', '.join(r)] is [String.concat ", " r]; the ["%s"] of the format
    string is replaced by it; [print] writes the text and a newline.
    [main] is modelled by the text it writes to standard output. *)

Definition newline : string := String (Ascii.ascii_of_nat 10) EmptyString.

(** A name that the [", "] separator cannot cut: it has no comma. *)
Fixpoint comma_free (s : string) : bool :=
  match s with
  | EmptyString => true
  | String c s' => negb (Ascii.eqb c (Ascii.ascii_of_nat 44)) && comma_free s'
  end.

Definition main : py string :=
  r ← relations ;
  let go := "var typesRelation [256]TypesRelation{"
              +:+ String.concat ", " (r : list string) +:+ "}" in
  Return (go +:+ newline).

(** What follows a name in a join: nothing, or a separator, which starts
    with a comma. *)
Definition after_name (xs : list string) : string :=
  match xs with
  | [] => ""
  | _ :: _ => ", " +:+ String.concat ", " xs
  end.

(** * Properties *)

(** ** The closed enumeration *)

Lemma TypeTag_range t : TypeTag t ↔ t ∈ range 16.
Proof.
  unfold TypeTag, range. rewrite list_elem_of_fmap. split.
  - intros Ht. exists (Z.to_nat t). split; [lia|].
    apply elem_of_seq. lia.
  - intros (n & -> & Hn). apply elem_of_seq in Hn. lia.
Qed.

(** A decidable property of one tag, or of a pair of tags, holds on the
    whole enumeration as soon as it holds on the sixteen (256) instances. *)
Lemma all_tags (P : Z → Prop) `{∀ t, Decision (P t)} :
  bool_decide (Forall P (range 16)) = true → ∀ t, TypeTag t → P t.
Proof.
  intros HP t Ht. apply bool_decide_eq_true in HP.
  rewrite Forall_forall in HP. by apply HP, TypeTag_range.
Qed.

Lemma all_tag_pairs (P : Z → Z → Prop) `{∀ a b, Decision (P a b)} :
  bool_decide (Forall (λ a, Forall (P a) (range 16)) (range 16)) = true →
  ∀ a b, TypeTag a → TypeTag b → P a b.
Proof.
  intros HP a b Ha Hb. apply bool_decide_eq_true in HP.
  rewrite Forall_forall in HP. specialize (HP a (proj1 (TypeTag_range a) Ha)).
  rewrite Forall_forall in HP. by apply HP, TypeTag_range.
Qed.

(** ** [strict_less_aux]: the subscript may raise, the function does not *)

Lemma strict_less_aux_entry type1 type2 s :
  strict_less_lookup !! type1 = Some s →
  strict_less_aux type1 type2 = Return (bool_decide (type2 ∈ s)).
Proof. intros Hs. unfold strict_less_aux, getitem. by rewrite Hs. Qed.

Lemma getitem_no_entry {V} (d : gmap Z V) k :
  d !! k = None → getitem d k = Raise (KeyError k).
Proof. intros Hk. unfold getitem. by rewrite Hk. Qed.

Lemma strict_less_aux_no_entry type1 type2 :
  strict_less_lookup !! type1 = None →
  strict_less_aux type1 type2 = Return false.
Proof. intros Hs. unfold strict_less_aux. by rewrite getitem_no_entry. Qed.

Lemma strict_less_aux_returns type1 type2 :
  ∃ b, strict_less_aux type1 type2 = Return b.
Proof.
  destruct (strict_less_lookup !! type1) as [s|] eqn:Hs.
  - eexists. by apply strict_less_aux_entry.
  - eexists. by apply strict_less_aux_no_entry.
Qed.

Lemma strict_less_aux_true type1 type2 :
  strict_less_aux type1 type2 = Return true ↔
  ∃ s, strict_less_lookup !! type1 = Some s ∧ type2 ∈ s.
Proof.
  destruct (strict_less_lookup !! type1) as [s|] eqn:Hs.
  - rewrite (strict_less_aux_entry _ _ s Hs). split.
    + intros [= Hb]. apply bool_decide_eq_true in Hb. eauto.
    + intros (s' & [= <-] & Hin). by rewrite bool_decide_eq_true_2.
  - rewrite strict_less_aux_no_entry by done. split; [done|].
    by intros (s' & [=] & _).
Qed.

(** ** [relation], branch by branch *)

Lemma not_supported_spec t :
  not_supported t = true ↔ t ∈ [SYMBOL; SEXP; STRUCT; ANNOTATION; RESERVED].
Proof. apply bool_decide_eq_true. Qed.

Lemma relation_unsupported type1 type2 :
  not_supported type1 || not_supported type2 = true →
  relation type1 type2 = Return Invalid.
Proof. intros Hu. unfold relation. by rewrite Hu. Qed.

Lemma relation_same t :
  not_supported t = false → relation t t = Return CompareSameType.
Proof.
  intros Hs. unfold relation. rewrite Hs; cbn [orb].
  by rewrite bool_decide_eq_true_2.
Qed.

Lemma relation_supported_distinct type1 type2 b12 b21 :
  not_supported type1 = false → not_supported type2 = false →
  type1 ≠ type2 →
  strict_less_aux type1 type2 = Return b12 →
  strict_less_aux type2 type1 = Return b21 →
  relation type1 type2 =
    Return (if b12 then Less else if b21 then Greater else CompareDifferentTypes).
Proof.
  intros H1 H2 Hne H12 H21. unfold relation.
  rewrite H1, H2; cbn [orb]. rewrite bool_decide_eq_false_2 by done.
  rewrite H12; cbn [mbind py_bind]. destruct b12; [done|].
  rewrite H21; cbn [mbind py_bind]. by destruct b21.
Qed.

(** The five relation names are pairwise different. *)
Lemma relation_names_NoDup :
  NoDup [Less; Greater; CompareSameType; CompareDifferentTypes; Invalid].
Proof. apply (bool_decide_unpack _). by vm_compute. Qed.

(** Off the diagonal the base order never holds in both directions. *)
Lemma strict_less_asymmetric_off_diagonal a b :
  TypeTag a → TypeTag b → a ≠ b →
  strict_less_aux a b = Return true → strict_less_aux b a = Return false.
Proof.
  revert a b. apply (all_tag_pairs (λ a b, a ≠ b →
    strict_less_aux a b = Return true → strict_less_aux b a = Return false)).
  by vm_compute.
Qed.

Lemma unsupported_TypeTag t : not_supported t = true → TypeTag t.
Proof.
  rewrite not_supported_spec, !elem_of_cons, elem_of_nil.
  unfold TypeTag, SYMBOL, SEXP, STRUCT, ANNOTATION, RESERVED. lia.
Qed.

Lemma numeric_TypeTag t : numeric t = true → TypeTag t.
Proof.
  unfold numeric. rewrite bool_decide_eq_true, !elem_of_cons, elem_of_nil.
  unfold TypeTag, UINT, INT, FLOAT, DECIMAL. lia.
Qed.

(** The only tag that is a member of its own strict-less set. *)
Lemma strict_less_self t :
  TypeTag t → strict_less_aux t t = Return true ↔ t = STRING.
Proof.
  revert t.
  apply (all_tags (λ t, strict_less_aux t t = Return true ↔ t = STRING)).
  by vm_compute.
Qed.

(** ** Numeric tags against each other *)

(** C1, as the script has it: two different numeric tags relate as
    [CompareDifferentTypes], except the signed/unsigned pair, which the
    table orders: [UINT] is in [INT]'s strict-less set, so
    [relation(INT, UINT)] is [Less] and [relation(UINT, INT)] is [Greater];
    no other numeric tag is in a numeric tag's strict-less set. *)
Theorem numeric_cross_comparison a b :
  numeric a = true → numeric b = true → a ≠ b →
  (¬ (a = INT ∧ b = UINT) → ¬ (a = UINT ∧ b = INT) →
     relation a b = Return CompareDifferentTypes)
  ∧ (a = INT ∧ b = UINT → relation a b = Return Less)
  ∧ (a = UINT ∧ b = INT → relation a b = Return Greater)
  ∧ (strict_less_aux a b = Return true ↔ a = INT ∧ b = UINT).
Proof.
  intros Ha Hb. generalize Ha Hb.
  generalize (numeric_TypeTag a Ha) (numeric_TypeTag b Hb).
  clear Ha Hb. revert a b.
  apply (all_tag_pairs (λ a b, numeric a = true → numeric b = true → a ≠ b →
    (¬ (a = INT ∧ b = UINT) → ¬ (a = UINT ∧ b = INT) →
       relation a b = Return CompareDifferentTypes)
    ∧ (a = INT ∧ b = UINT → relation a b = Return Less)
    ∧ (a = UINT ∧ b = INT → relation a b = Return Greater)
    ∧ (strict_less_aux a b = Return true ↔ a = INT ∧ b = UINT))).
  by vm_compute.
Qed.

Lemma numeric_cross_comparison_witness :
  (numeric FLOAT = true ∧ numeric INT = true ∧ FLOAT ≠ INT)
  ∧ relation FLOAT INT = Return CompareDifferentTypes.
Proof.
  split; [done|].
  apply (numeric_cross_comparison FLOAT INT); by try intros [? ?].
Defined.

(** C1 fails as stated: [UINT] and [INT] are different numeric tags, and
    the script relates them as [Greater], through [INT]'s table entry. *)
Lemma relation_UINT_INT_is_Greater :
  numeric UINT = true ∧ numeric INT = true ∧ UINT ≠ INT
  ∧ strict_less_aux INT UINT = Return true
  ∧ relation UINT INT = Return Greater
  ∧ relation UINT INT ≠ Return CompareDifferentTypes.
Proof. by vm_compute. Qed.

(** ** Concrete pairs *)

(** C2 fails as stated: [STRUCT] is unsupported, so the first check
    answers [Invalid] before the table is consulted. *)
Lemma relation_STRUCT_LIST_not_Greater :
  relation STRUCT LIST = Return Invalid
  ∧ relation STRUCT LIST ≠ Return Greater.
Proof. by vm_compute. Qed.

(** C2, as the script has it: [relation(STRUCT, LIST)] is [Invalid],
    because [STRUCT] is in the unsupported set; the table does list
    [STRUCT] after [LIST], but that entry is never reached. *)
Theorem relation_STRUCT_LIST :
  relation STRUCT LIST = Return Invalid
  ∧ not_supported STRUCT = true
  ∧ strict_less_aux LIST STRUCT = Return true.
Proof.
  assert (Hu : not_supported STRUCT = true) by by vm_compute.
  split_and!; [|done|].
  - apply relation_unsupported. by rewrite Hu.
  - apply strict_less_aux_true. eexists. split; [by vm_compute|].
    set_solver.
Qed.

(** C9: [NULL] is not a key of the table and is in none of its sets, so
    [relation(NULL, BOOL)] is [CompareDifferentTypes], not [Less]. *)
Theorem relation_NULL_BOOL :
  relation NULL BOOL = Return CompareDifferentTypes
  ∧ relation NULL BOOL ≠ Return Less
  ∧ strict_less_lookup !! NULL = None
  ∧ map_Forall (λ _ (s : gset Z), NULL ∉ s) strict_less_lookup.
Proof.
  assert (Hnone : strict_less_lookup !! NULL = None) by by vm_compute.
  assert (Hin : map_Forall (λ _ (s : gset Z), NULL ∉ s) strict_less_lookup).
  { apply (bool_decide_unpack _). by vm_compute. }
  assert (Hrel : relation NULL BOOL = Return CompareDifferentTypes).
  { rewrite (relation_supported_distinct NULL BOOL false false);
      [done| by vm_compute | by vm_compute | done | |].
    - by apply strict_less_aux_no_entry.
    - destruct (strict_less_aux_returns BOOL NULL) as [[] Hb]; [|done].
      apply strict_less_aux_true in Hb as (s & Hs & Hmem).
      by destruct (Hin BOOL s Hs). }
  split_and!; [done| |done|done].
  rewrite Hrel. by intros [=].
Qed.

(** ** The diagonal *)

(** C3 fails as stated: an unsupported tag against itself is [Invalid]. *)
Lemma relation_SYMBOL_SYMBOL_not_same :
  TypeTag SYMBOL
  ∧ relation SYMBOL SYMBOL = Return Invalid
  ∧ relation SYMBOL SYMBOL ≠ Return CompareSameType.
Proof. by vm_compute. Qed.

(** C3, as the script has it: [relation(t, t)] is [CompareSameType] for
    every tag [t] in [0, 15] outside the unsupported set, and [Invalid]
    for the five unsupported tags. *)
Theorem relation_reflexive t :
  TypeTag t →
  relation t t =
    Return (if not_supported t then Invalid else CompareSameType).
Proof.
  intros _. destruct (not_supported t) eqn:Hs.
  - apply relation_unsupported. by rewrite Hs.
  - by apply relation_same.
Qed.

Lemma relation_reflexive_witness :
  TypeTag STRING ∧ relation STRING STRING = Return CompareSameType.
Proof.
  assert (Ht : TypeTag STRING) by (unfold TypeTag, STRING; lia).
  split; [exact Ht|]. exact (relation_reflexive STRING Ht).
Defined.

(** C10: on the diagonal the result is [CompareSameType] or [Invalid],
    never [Less] or [Greater]; [STRING] is a member of its own strict-less
    set, and [relation(STRING, STRING)] is [CompareSameType] all the same. *)
Theorem relation_diagonal_never_ordered t :
  TypeTag t →
  (relation t t = Return CompareSameType ∨ relation t t = Return Invalid)
  ∧ relation t t ≠ Return Less
  ∧ relation t t ≠ Return Greater
  ∧ strict_less_aux STRING STRING = Return true
  ∧ relation STRING STRING = Return CompareSameType.
Proof.
  intros Ht.
  assert (Hd : relation t t = Return CompareSameType
             ∨ relation t t = Return Invalid).
  { destruct (not_supported t) eqn:Hs.
    - right. apply relation_unsupported. by rewrite Hs.
    - left. by apply relation_same. }
  split_and!; [done| | | |].
  - by destruct Hd as [-> | ->].
  - by destruct Hd as [-> | ->].
  - by apply strict_less_self.
  - by apply relation_same.
Qed.

Lemma relation_diagonal_never_ordered_witness :
  TypeTag STRING
  ∧ relation STRING STRING ≠ Return Less
  ∧ relation STRING STRING ≠ Return Greater.
Proof.
  assert (Ht : TypeTag STRING) by (unfold TypeTag, STRING; lia).
  split; [exact Ht|].
  split; apply (relation_diagonal_never_ordered STRING Ht).
Defined.

(** ** The base order *)

(** C4 at [A = B = STRING]: line 29 of the script puts [STRING] into
    [STRING]'s own set, so the table holds in both directions there. *)
Theorem strict_less_STRING_STRING :
  strict_less_aux STRING STRING = Return true
  ∧ ¬ (∀ A B, TypeTag A → TypeTag B →
         strict_less_aux A B = Return true →
         strict_less_aux B A = Return false).
Proof.
  assert (Ht : TypeTag STRING) by (unfold TypeTag, STRING; lia).
  assert (Hs : strict_less_aux STRING STRING = Return true)
    by by apply strict_less_self.
  split; [done|]. intros Hasym.
  specialize (Hasym STRING STRING Ht Ht Hs). by rewrite Hs in Hasym.
Qed.

(** ** The unsupported set *)

(** C5: an unsupported tag on either side gives [Invalid], whatever the
    later checks would say: also when both tags are equal, and also when
    the table orders the pair. *)
Theorem unsupported_dominance a b :
  TypeTag a → TypeTag b →
  a ∈ [SYMBOL; SEXP; STRUCT; ANNOTATION; RESERVED]
    ∨ b ∈ [SYMBOL; SEXP; STRUCT; ANNOTATION; RESERVED] →
  relation a b = Return Invalid
  ∧ (a = b → relation a b ≠ Return CompareSameType)
  ∧ (strict_less_aux a b = Return true → relation a b ≠ Return Less)
  ∧ (strict_less_aux b a = Return true → relation a b ≠ Return Greater).
Proof.
  intros _ _ Hu.
  assert (Hrel : relation a b = Return Invalid).
  { apply relation_unsupported, orb_true_iff.
    by rewrite !not_supported_spec. }
  rewrite Hrel. split_and!; [done| | |]; by intros _ [=].
Qed.

Lemma unsupported_dominance_witness :
  (TypeTag LIST ∧ TypeTag STRUCT
   ∧ STRUCT ∈ [SYMBOL; SEXP; STRUCT; ANNOTATION; RESERVED])
  ∧ strict_less_aux LIST STRUCT = Return true
  ∧ relation LIST STRUCT = Return Invalid.
Proof.
  assert (Ha : TypeTag LIST) by (unfold TypeTag, LIST; lia).
  assert (Hb : TypeTag STRUCT) by (unfold TypeTag, STRUCT; lia).
  assert (Hu : STRUCT ∈ [SYMBOL; SEXP; STRUCT; ANNOTATION; RESERVED])
    by (apply (bool_decide_unpack _); by vm_compute).
  split; [done|]. split; [by vm_compute|].
  apply (unsupported_dominance LIST STRUCT Ha Hb). by right.
Defined.

(** ** Totality *)

Lemma relation_returns type1 type2 :
  ∃ r, relation type1 type2 = Return r
       ∧ r ∈ [Less; Greater; CompareSameType; CompareDifferentTypes; Invalid].
Proof.
  destruct (not_supported type1 || not_supported type2) eqn:Hu.
  { exists Invalid. split; [by apply relation_unsupported | set_solver]. }
  apply orb_false_iff in Hu as [H1 H2].
  destruct (decide (type1 = type2)) as [<- | Hne].
  { exists CompareSameType. split; [by apply relation_same | set_solver]. }
  destruct (strict_less_aux_returns type1 type2) as [b12 H12].
  destruct (strict_less_aux_returns type2 type1) as [b21 H21].
  eexists. split; [by apply (relation_supported_distinct _ _ b12 b21)|].
  destruct b12, b21; set_solver.
Qed.

(** C8: on [0, 15] x [0, 15] the oracle returns one of the five relation
    names and does not raise; where [type1] is not a key of the table the
    subscript raises [KeyError], which [strict_less_aux] turns into
    [False]. *)
Theorem relation_total a b :
  TypeTag a → TypeTag b →
  (∃ r, relation a b = Return r
        ∧ r ∈ [Less; Greater; CompareSameType; CompareDifferentTypes; Invalid])
  ∧ (∃ less, strict_less_aux a b = Return less)
  ∧ (strict_less_lookup !! a = None →
       getitem strict_less_lookup a = Raise (KeyError a)
       ∧ strict_less_aux a b = Return false).
Proof.
  intros _ _. split_and!.
  - apply relation_returns.
  - apply strict_less_aux_returns.
  - intros Hnone. split.
    + by apply getitem_no_entry.
    + by apply strict_less_aux_no_entry.
Qed.

Lemma relation_total_witness :
  (TypeTag NULL ∧ TypeTag BOOL ∧ strict_less_lookup !! NULL = None)
  ∧ getitem strict_less_lookup NULL = Raise (KeyError NULL)
  ∧ strict_less_aux NULL BOOL = Return false.
Proof.
  assert (Ha : TypeTag NULL) by (unfold TypeTag, NULL; lia).
  assert (Hb : TypeTag BOOL) by (unfold TypeTag, BOOL; lia).
  assert (Hnone : strict_less_lookup !! NULL = None) by by vm_compute.
  split; [done|].
  exact (proj2 (proj2 (relation_total NULL BOOL Ha Hb)) Hnone).
Defined.

(** ** Consistency of the grid *)

(** C6: for two different supported tags, [relation(a, b)] is [Less]
    exactly when [relation(b, a)] is [Greater], and the other way round;
    [CompareSameType] and [Invalid] sit at mirrored places of the grid. *)
Theorem relation_antisymmetric a b :
  TypeTag a → TypeTag b →
  (a ≠ b → not_supported a = false → not_supported b = false →
     (relation a b = Return Less ↔ relation b a = Return Greater)
     ∧ (relation a b = Return Greater ↔ relation b a = Return Less))
  ∧ (relation a b = Return CompareSameType
       ↔ relation b a = Return CompareSameType)
  ∧ (relation a b = Return Invalid ↔ relation b a = Return Invalid).
Proof.
  intros Ha Hb.
  destruct (not_supported a || not_supported b) eqn:Hu.
  { assert (Hu' : not_supported b || not_supported a = true)
      by by rewrite orb_comm.
    rewrite (relation_unsupported a b Hu), (relation_unsupported b a Hu').
    apply orb_true_iff in Hu. split_and!; [|done|done].
    intros _ Hsa Hsb. destruct Hu; congruence. }
  apply orb_false_iff in Hu as [Hsa Hsb].
  destruct (decide (a = b)) as [<- | Hne].
  { rewrite (relation_same a Hsa). by split_and!. }
  destruct (strict_less_aux_returns a b) as [b12 H12].
  destruct (strict_less_aux_returns b a) as [b21 H21].
  rewrite (relation_supported_distinct a b b12 b21) by done.
  rewrite (relation_supported_distinct b a b21 b12) by done.
  destruct b12, b21.
  - pose proof (strict_less_asymmetric_off_diagonal a b Ha Hb Hne H12).
    congruence.
  - split_and!; [intros _ _ _|..]; by split.
  - split_and!; [intros _ _ _|..]; by split.
  - split_and!; [intros _ _ _|..]; by split.
Qed.

Lemma relation_antisymmetric_witness :
  (TypeTag BOOL ∧ TypeTag TIMESTAMP ∧ BOOL ≠ TIMESTAMP
   ∧ not_supported BOOL = false ∧ not_supported TIMESTAMP = false)
  ∧ (relation BOOL TIMESTAMP = Return Less
       ↔ relation TIMESTAMP BOOL = Return Greater).
Proof.
  assert (Ha : TypeTag BOOL) by (unfold TypeTag, BOOL; lia).
  assert (Hb : TypeTag TIMESTAMP) by (unfold TypeTag, TIMESTAMP; lia).
  split; [done|].
  by apply (relation_antisymmetric BOOL TIMESTAMP Ha Hb).
Defined.

(** ** The full table *)

Section for_yield.
Context {A B : Type} (f : A → py B).

(** A drained loop returns the list of what its body returned. *)
Lemma for_yield_Forall2 xs ys :
  for_yield f xs = Return ys ↔ Forall2 (λ x y, f x = Return y) xs ys.
Proof.
  revert ys. induction xs as [|x xs IH]; intros ys; cbn [for_yield].
  - split.
    + intros [= <-]. constructor.
    + intros ->%Forall2_nil_inv_l. done.
  - split.
    + destruct (f x) as [y|e] eqn:Hy; cbn [mbind py_bind]; [|done].
      destruct (for_yield f xs) as [ys'|e] eqn:Hys; cbn [mbind py_bind];
        [|done].
      intros [= <-]. constructor; [done|]. by apply IH.
    + intros (y & ys' & Hy & Hys & ->)%Forall2_cons_inv_l.
      apply IH in Hys. rewrite Hy; cbn [mbind py_bind].
      by rewrite Hys.
Qed.

(** It raises only if its body does. *)
Lemma for_yield_returns xs :
  (∀ x, ∃ y, f x = Return y) → ∃ ys, for_yield f xs = Return ys.
Proof.
  intros Hf. induction xs as [|x xs [ys Hys]]; cbn [for_yield].
  - by eexists.
  - destruct (Hf x) as [y Hy]. exists (y :: ys).
    rewrite Hy; cbn [mbind py_bind]. by rewrite Hys.
Qed.
End for_yield.

Lemma range_length n : length (range n) = n.
Proof. unfold range. by rewrite length_fmap, length_seq. Qed.

Lemma range_lookup n t :
  0 ≤ t < Z.of_nat n → range n !! Z.to_nat t = Some t.
Proof.
  intros Ht. unfold range. rewrite list_lookup_fmap.
  rewrite (proj2 (lookup_seq 0 n (Z.to_nat t) (Z.to_nat t))) by lia.
  cbn. f_equal. lia.
Qed.

(** C7: the drained generator is a list of 256 relation names, and the
    entry at index [type1 * 16 + type2] is what [relation(type1, type2)]
    returns. *)
Theorem relations_row_major type1 type2 :
  TypeTag type1 → TypeTag type2 →
  ∃ table r,
    relations = Return table
    ∧ length table = 256%nat
    ∧ relation type1 type2 = Return r
    ∧ table !! Z.to_nat (type1 * 16 + type2) = Some r.
Proof.
  intros H1 H2. unfold TypeTag in H1, H2.
  destruct (for_yield_returns
    (λ t1, for_yield (λ t2, relation t1 t2) (range 16)) (range 16))
    as [rows Hrows].
  { intros t1. apply for_yield_returns. intros t2.
    destruct (relation_returns t1 t2) as (r & Hr & _). eauto. }
  assert (Htable : relations = Return (mjoin rows)).
  { unfold relations. by rewrite Hrows. }
  apply for_yield_Forall2 in Hrows.
  assert (Hwidth : Forall (λ row : list string, length row = 16%nat) rows).
  { apply Forall_lookup. intros i row Hrow.
    destruct (Forall2_lookup_r _ _ _ _ _ Hrows Hrow) as (t1 & _ & Hfor).
    apply for_yield_Forall2, Forall2_length in Hfor.
    by rewrite <- Hfor, range_length. }
  destruct (Forall2_lookup_l _ _ _ (Z.to_nat type1) type1 Hrows)
    as (row & Hrow & Hfor); [apply range_lookup; lia|].
  apply for_yield_Forall2 in Hfor.
  destruct (Forall2_lookup_l _ _ _ (Z.to_nat type2) type2 Hfor)
    as (r & Hr & Hrel); [apply range_lookup; lia|].
  exists (mjoin rows), r. split_and!; [done| |done|].
  - rewrite length_join, (sum_list_fmap_same 16) by done.
    apply Forall2_length in Hrows. rewrite <- Hrows, range_length. done.
  - replace (Z.to_nat (type1 * 16 + type2))
      with (Z.to_nat type1 * 16 + Z.to_nat type2)%nat by lia.
    apply (join_lookup_Some_same_length' 16); [done|lia|]. eauto.
Qed.

Lemma relations_row_major_witness :
  (TypeTag INT ∧ TypeTag UINT)
  ∧ ∃ table r,
      relations = Return table
      ∧ length table = 256%nat
      ∧ relation INT UINT = Return r
      ∧ table !! Z.to_nat (INT * 16 + UINT) = Some r.
Proof.
  assert (H1 : TypeTag INT) by (unfold TypeTag, INT; lia).
  assert (H2 : TypeTag UINT) by (unfold TypeTag, UINT; lia).
  split; [done|]. exact (relations_row_major INT UINT H1 H2).
Defined.

(** * Further properties of the script *)

(** ** The table only mentions tags of the enumeration *)

Lemma strict_less_lookup_tags :
  map_Forall (λ k (s : gset Z), (0 ≤ k ≤ 15) ∧ set_Forall (λ t, 0 ≤ t ≤ 15) s)
             strict_less_lookup.
Proof. apply (bool_decide_unpack _). by vm_compute. Qed.

Lemma strict_less_aux_true_tags a b :
  strict_less_aux a b = Return true → TypeTag a ∧ TypeTag b.
Proof.
  intros (s & Hs & Hb)%strict_less_aux_true.
  destruct (strict_less_lookup_tags a s Hs) as [Ha Hall].
  split; [exact Ha | exact (Hall b Hb)].
Qed.

Lemma strict_less_asymmetric a b :
  a ≠ b → strict_less_aux a b = Return true →
  strict_less_aux b a = Return false.
Proof.
  intros Hne Hab. destruct (strict_less_aux_true_tags a b Hab) as [Ha Hb].
  by apply strict_less_asymmetric_off_diagonal.
Qed.

Lemma strict_less_trans a b c :
  strict_less_aux a b = Return true → strict_less_aux b c = Return true →
  strict_less_aux a c = Return true.
Proof.
  intros Hab Hbc.
  destruct (strict_less_aux_true_tags a b Hab) as [Ha Hb].
  destruct (strict_less_aux_true_tags b c Hbc) as [_ Hc].
  assert (Hall : ∀ x y, TypeTag x → TypeTag y →
    Forall (λ z, strict_less_aux x y = Return true →
                 strict_less_aux y z = Return true →
                 strict_less_aux x z = Return true) (range 16)).
  { apply (all_tag_pairs (λ x y,
      Forall (λ z, strict_less_aux x y = Return true →
                   strict_less_aux y z = Return true →
                   strict_less_aux x z = Return true) (range 16))).
    by vm_compute. }
  specialize (Hall a b Ha Hb). rewrite Forall_forall in Hall.
  by apply (Hall c); [apply TypeTag_range|..].
Qed.

(** ** [relation], result by result *)

Lemma relation_Less_iff a b :
  relation a b = Return Less ↔
  not_supported a = false ∧ not_supported b = false ∧ a ≠ b
  ∧ strict_less_aux a b = Return true.
Proof.
  destruct (not_supported a || not_supported b) eqn:Hu.
  { rewrite (relation_unsupported a b Hu). apply orb_true_iff in Hu.
    split; [done|]. intros (Hsa & Hsb & _). destruct Hu; congruence. }
  apply orb_false_iff in Hu as [Hsa Hsb].
  destruct (decide (a = b)) as [<- | Hne].
  { rewrite (relation_same a Hsa). split; [done|]. by intros (_ & _ & ? & _). }
  destruct (strict_less_aux_returns a b) as [b12 H12].
  destruct (strict_less_aux_returns b a) as [b21 H21].
  rewrite (relation_supported_distinct a b b12 b21) by done. rewrite H12.
  destruct b12, b21; split; try done; by intros (_ & _ & _ & [=]).
Qed.

Lemma relation_Greater_iff a b :
  relation a b = Return Greater ↔
  not_supported a = false ∧ not_supported b = false ∧ a ≠ b
  ∧ strict_less_aux a b = Return false ∧ strict_less_aux b a = Return true.
Proof.
  destruct (not_supported a || not_supported b) eqn:Hu.
  { rewrite (relation_unsupported a b Hu). apply orb_true_iff in Hu.
    split; [done|]. intros (Hsa & Hsb & _). destruct Hu; congruence. }
  apply orb_false_iff in Hu as [Hsa Hsb].
  destruct (decide (a = b)) as [<- | Hne].
  { rewrite (relation_same a Hsa). split; [done|]. by intros (_ & _ & ? & _). }
  destruct (strict_less_aux_returns a b) as [b12 H12].
  destruct (strict_less_aux_returns b a) as [b21 H21].
  rewrite (relation_supported_distinct a b b12 b21) by done. rewrite H12, H21.
  destruct b12, b21; split; try done; by intros (_ & _ & _ & [=] & [=]).
Qed.

Lemma relation_Different_iff a b :
  relation a b = Return CompareDifferentTypes ↔
  not_supported a = false ∧ not_supported b = false ∧ a ≠ b
  ∧ strict_less_aux a b = Return false ∧ strict_less_aux b a = Return false.
Proof.
  destruct (not_supported a || not_supported b) eqn:Hu.
  { rewrite (relation_unsupported a b Hu). apply orb_true_iff in Hu.
    split; [done|]. intros (Hsa & Hsb & _). destruct Hu; congruence. }
  apply orb_false_iff in Hu as [Hsa Hsb].
  destruct (decide (a = b)) as [<- | Hne].
  { rewrite (relation_same a Hsa). split; [done|]. by intros (_ & _ & ? & _). }
  destruct (strict_less_aux_returns a b) as [b12 H12].
  destruct (strict_less_aux_returns b a) as [b21 H21].
  rewrite (relation_supported_distinct a b b12 b21) by done. rewrite H12, H21.
  destruct b12, b21; split; try done; by intros (_ & _ & _ & [=] & [=]).
Qed.

(** ** Integers outside the enumeration *)

(** X1: [strict_less_aux] answers [False], and does not raise, as soon as
    one of its arguments is not a tag in [0, 15]: a missing key is caught,
    and no set of the table has a member outside the enumeration. *)
Theorem strict_less_aux_outside a b :
  ¬ TypeTag a ∨ ¬ TypeTag b → strict_less_aux a b = Return false.
Proof.
  intros Hout. destruct (strict_less_aux_returns a b) as [[] Hab]; [|done].
  apply strict_less_aux_true_tags in Hab. tauto.
Qed.

Lemma strict_less_aux_outside_witness :
  (¬ TypeTag 16 ∨ ¬ TypeTag STRUCT) ∧ strict_less_aux 16 STRUCT = Return false.
Proof.
  assert (Hout : ¬ TypeTag 16 ∨ ¬ TypeTag STRUCT)
    by (left; unfold TypeTag; lia).
  split; [exact Hout|]. exact (strict_less_aux_outside 16 STRUCT Hout).
Defined.

(** X2: [relation] does not check its arguments' range.  When one of them
    is outside [0, 15] it still returns: [Invalid] if the other one is
    unsupported, [CompareSameType] if both are the same integer, and
    [CompareDifferentTypes] otherwise; never [Less] or [Greater]. *)
Theorem relation_outside a b :
  ¬ TypeTag a ∨ ¬ TypeTag b →
  relation a b =
    Return (if not_supported a || not_supported b then Invalid
            else if bool_decide (a = b) then CompareSameType
            else CompareDifferentTypes).
Proof.
  intros Hout. destruct (not_supported a || not_supported b) eqn:Hu.
  { by apply relation_unsupported. }
  apply orb_false_iff in Hu as [Hsa Hsb]. case_bool_decide as Hab.
  { subst b. by apply relation_same. }
  apply relation_Different_iff. split_and!; [done|done|done| |].
  - destruct (strict_less_aux_returns a b) as [[] H12]; [|done].
    apply strict_less_aux_true_tags in H12. tauto.
  - destruct (strict_less_aux_returns b a) as [[] H21]; [|done].
    apply strict_less_aux_true_tags in H21. tauto.
Qed.

Lemma relation_outside_witness :
  (¬ TypeTag (-1) ∨ ¬ TypeTag BOOL)
  ∧ relation (-1) BOOL = Return CompareDifferentTypes.
Proof.
  assert (Hout : ¬ TypeTag (-1) ∨ ¬ TypeTag BOOL)
    by (left; unfold TypeTag; lia).
  split; [exact Hout|]. exact (relation_outside (-1) BOOL Hout).
Defined.

(** ** The order the table and the grid describe *)

(** X3: the table is transitively closed: if [b] is in [a]'s set and [c]
    is in [b]'s set, then [c] is in [a]'s set, for any integers. *)
Theorem strict_less_aux_transitive a b c :
  strict_less_aux a b = Return true → strict_less_aux b c = Return true →
  strict_less_aux a c = Return true.
Proof. apply strict_less_trans. Qed.

Lemma strict_less_aux_transitive_witness :
  (strict_less_aux INT UINT = Return true
   ∧ strict_less_aux UINT TIMESTAMP = Return true)
  ∧ strict_less_aux INT TIMESTAMP = Return true.
Proof.
  assert (H1 : strict_less_aux INT UINT = Return true) by by vm_compute.
  assert (H2 : strict_less_aux UINT TIMESTAMP = Return true) by by vm_compute.
  split; [done|]. exact (strict_less_aux_transitive INT UINT TIMESTAMP H1 H2).
Defined.

(** X4: [Less] is transitive in the grid: if [relation(a, b)] and
    [relation(b, c)] are both [Less], so is [relation(a, c)]. *)
Theorem relation_Less_transitive a b c :
  relation a b = Return Less → relation b c = Return Less →
  relation a c = Return Less.
Proof.
  intros (Hsa & Hsb & Hab & H12)%relation_Less_iff.
  intros (_ & Hsc & Hbc & H23)%relation_Less_iff.
  apply relation_Less_iff. split_and!; [done|done| |].
  - intros <-. pose proof (strict_less_asymmetric a b Hab H12). congruence.
  - by apply (strict_less_trans a b c).
Qed.

Lemma relation_Less_transitive_witness :
  (relation BOOL INT = Return Less ∧ relation INT UINT = Return Less)
  ∧ relation BOOL UINT = Return Less.
Proof.
  assert (H1 : relation BOOL INT = Return Less) by by vm_compute.
  assert (H2 : relation INT UINT = Return Less) by by vm_compute.
  split; [done|]. exact (relation_Less_transitive BOOL INT UINT H1 H2).
Defined.

(** X5: [Less] follows the numbering of the tags, with one exception:
    if [relation(a, b)] is [Less] then [a < b] as integers, or the pair is
    [(INT, UINT)]. *)
Theorem relation_Less_numbering a b :
  relation a b = Return Less → a < b ∨ (a = INT ∧ b = UINT).
Proof.
  intros HLess. generalize HLess.
  apply relation_Less_iff in HLess as (_ & _ & _ & H12).
  destruct (strict_less_aux_true_tags a b H12) as [Ha Hb]. clear H12.
  revert a b Ha Hb.
  apply (all_tag_pairs (λ a b,
    relation a b = Return Less → a < b ∨ (a = INT ∧ b = UINT))).
  by vm_compute.
Qed.

Lemma relation_Less_numbering_witness :
  relation INT UINT = Return Less
  ∧ (INT < UINT ∨ (INT = INT ∧ UINT = UINT)).
Proof.
  assert (H1 : relation INT UINT = Return Less) by by vm_compute.
  split; [done|]. exact (relation_Less_numbering INT UINT H1).
Defined.

(** X6: the pairs of tags that need a comparison across types.  For tags
    in [0, 15], [relation(a, b)] is [CompareDifferentTypes] exactly when
    both are supported and different and either one of them is [NULL], or
    both are numeric and not the pair [INT]/[UINT], or they are [CLOB] and
    [BLOB]. *)
Theorem relation_different_types_iff a b :
  TypeTag a → TypeTag b →
  relation a b = Return CompareDifferentTypes ↔
  a ≠ b ∧ not_supported a = false ∧ not_supported b = false
  ∧ (a = NULL ∨ b = NULL
     ∨ (numeric a = true ∧ numeric b = true
        ∧ ¬ (a = INT ∧ b = UINT) ∧ ¬ (a = UINT ∧ b = INT))
     ∨ (a = CLOB ∧ b = BLOB) ∨ (a = BLOB ∧ b = CLOB)).
Proof.
  revert a b. apply (all_tag_pairs (λ a b,
    relation a b = Return CompareDifferentTypes ↔
    a ≠ b ∧ not_supported a = false ∧ not_supported b = false
    ∧ (a = NULL ∨ b = NULL
       ∨ (numeric a = true ∧ numeric b = true
          ∧ ¬ (a = INT ∧ b = UINT) ∧ ¬ (a = UINT ∧ b = INT))
       ∨ (a = CLOB ∧ b = BLOB) ∨ (a = BLOB ∧ b = CLOB)))).
  by vm_compute.
Qed.

Lemma relation_different_types_iff_witness :
  (TypeTag CLOB ∧ TypeTag BLOB)
  ∧ relation CLOB BLOB = Return CompareDifferentTypes.
Proof.
  assert (Ha : TypeTag CLOB) by (unfold TypeTag, CLOB; lia).
  assert (Hb : TypeTag BLOB) by (unfold TypeTag, BLOB; lia).
  split; [done|].
  apply (relation_different_types_iff CLOB BLOB Ha Hb).
  split_and!; [done|done|done|]. right; right; right; left. done.
Defined.

(** X7: mirrored arguments give mirrored results for any two integers,
    in or out of [0, 15]: [Less] against [Greater], and
    [CompareDifferentTypes] against itself. *)
Theorem relation_mirror a b :
  (relation a b = Return Less ↔ relation b a = Return Greater)
  ∧ (relation a b = Return CompareDifferentTypes
       ↔ relation b a = Return CompareDifferentTypes).
Proof.
  rewrite relation_Less_iff, relation_Greater_iff, !relation_Different_iff.
  split; split.
  - intros (Hsa & Hsb & Hne & H12). split_and!; [done|done|done| |done].
    by apply strict_less_asymmetric.
  - intros (Hsb & Hsa & Hne & _ & H12). split_and!; done.
  - intros (Hsa & Hsb & Hne & H12 & H21). split_and!; done.
  - intros (Hsb & Hsa & Hne & H21 & H12). split_and!; done.
Qed.

Lemma relation_Invalid_iff a b :
  relation a b = Return Invalid ↔ not_supported a || not_supported b = true.
Proof.
  destruct (not_supported a || not_supported b) eqn:Hu.
  { by rewrite (relation_unsupported a b Hu). }
  apply orb_false_iff in Hu as [Hsa Hsb].
  destruct (decide (a = b)) as [<- | Hne].
  { by rewrite (relation_same a Hsa). }
  destruct (strict_less_aux_returns a b) as [b12 H12].
  destruct (strict_less_aux_returns b a) as [b21 H21].
  rewrite (relation_supported_distinct a b b12 b21) by done.
  by destruct b12, b21.
Qed.

Lemma relation_Same_iff a b :
  relation a b = Return CompareSameType ↔
  not_supported a = false ∧ not_supported b = false ∧ a = b.
Proof.
  destruct (not_supported a || not_supported b) eqn:Hu.
  { rewrite (relation_unsupported a b Hu). apply orb_true_iff in Hu.
    split; [done|]. intros (Hsa & Hsb & _). destruct Hu; congruence. }
  apply orb_false_iff in Hu as [Hsa Hsb].
  destruct (decide (a = b)) as [<- | Hne].
  { by rewrite (relation_same a Hsa). }
  destruct (strict_less_aux_returns a b) as [b12 H12].
  destruct (strict_less_aux_returns b a) as [b21 H21].
  rewrite (relation_supported_distinct a b b12 b21) by done.
  destruct b12, b21; split; try done; by intros (_ & _ & ?).
Qed.

Lemma relation_converse a b :
  (relation a b = Return Less ↔ relation b a = Return Greater)
  ∧ (relation a b = Return CompareDifferentTypes
       ↔ relation b a = Return CompareDifferentTypes)
  ∧ (relation a b = Return CompareSameType
       ↔ relation b a = Return CompareSameType)
  ∧ (relation a b = Return Invalid ↔ relation b a = Return Invalid).
Proof.
  rewrite relation_Less_iff, relation_Greater_iff, !relation_Different_iff,
    !relation_Same_iff, !relation_Invalid_iff.
  split_and!; split.
  - intros (Hsa & Hsb & Hne & H12). split_and!; [done|done|done| |done].
    by apply strict_less_asymmetric.
  - intros (Hsb & Hsa & Hne & _ & H12). split_and!; done.
  - intros (Hsa & Hsb & Hne & H12 & H21). split_and!; done.
  - intros (Hsb & Hsa & Hne & H21 & H12). split_and!; done.
  - intros (Hsa & Hsb & Hab). split_and!; done.
  - intros (Hsb & Hsa & Hab). split_and!; done.
  - by rewrite orb_comm.
  - by rewrite orb_comm.
Qed.

(** ** The emitted table *)

Lemma relations_table :
  ∃ table,
    relations = Return table
    ∧ length table = 256%nat
    ∧ Forall (λ r, r ∈ [Less; Greater; CompareSameType;
                        CompareDifferentTypes; Invalid]) table
    ∧ ∀ type1 type2, TypeTag type1 → TypeTag type2 →
        ∃ r, relation type1 type2 = Return r
             ∧ table !! Z.to_nat (type1 * 16 + type2) = Some r.
Proof.
  destruct (for_yield_returns
    (λ t1, for_yield (λ t2, relation t1 t2) (range 16)) (range 16))
    as [rows Hrows].
  { intros t1. apply for_yield_returns. intros t2.
    destruct (relation_returns t1 t2) as (r & Hr & _). eauto. }
  exists (mjoin rows).
  assert (Htable : relations = Return (mjoin rows)).
  { unfold relations. by rewrite Hrows. }
  apply for_yield_Forall2 in Hrows.
  assert (Hwidth : Forall (λ row : list string, length row = 16%nat) rows).
  { apply Forall_lookup. intros i row Hrow.
    destruct (Forall2_lookup_r _ _ _ _ _ Hrows Hrow) as (t1 & _ & Hfor).
    apply for_yield_Forall2, Forall2_length in Hfor.
    by rewrite <- Hfor, range_length. }
  split_and!; [done| | |].
  - rewrite length_join, (sum_list_fmap_same 16) by done.
    apply Forall2_length in Hrows. by rewrite <- Hrows, range_length.
  - apply Forall_join. eapply Forall2_Forall_r; [exact Hrows|].
    apply Forall_forall. intros t1 _ row Hrow%for_yield_Forall2.
    eapply Forall2_Forall_r; [exact Hrow|].
    apply Forall_forall. intros t2 _ r Hr.
    destruct (relation_returns t1 t2) as (r' & Hr' & Hin). congruence.
  - intros type1 type2 H1 H2. unfold TypeTag in H1, H2.
    destruct (Forall2_lookup_l _ _ _ (Z.to_nat type1) type1 Hrows)
      as (row & Hrow & Hfor); [apply range_lookup; lia|].
    apply for_yield_Forall2 in Hfor.
    destruct (Forall2_lookup_l _ _ _ (Z.to_nat type2) type2 Hfor)
      as (r & Hr & Hrel); [apply range_lookup; lia|].
    exists r. split; [done|].
    replace (Z.to_nat (type1 * 16 + type2))
      with (Z.to_nat type1 * 16 + Z.to_nat type2)%nat by lia.
    apply (join_lookup_Some_same_length' 16); [done|lia|]. eauto.
Qed.

(** X8: the emitted table is its own mirror image: the entry for
    [(type1, type2)] is [Less] exactly when the entry for [(type2, type1)]
    is [Greater], and [CompareDifferentTypes], [CompareSameType] and
    [Invalid] sit at mirrored indices. *)
Theorem relations_transpose type1 type2 :
  TypeTag type1 → TypeTag type2 →
  ∃ table,
    relations = Return table
    ∧ (table !! Z.to_nat (type1 * 16 + type2) = Some Less
         ↔ table !! Z.to_nat (type2 * 16 + type1) = Some Greater)
    ∧ (∀ r, r ∈ [CompareDifferentTypes; CompareSameType; Invalid] →
         table !! Z.to_nat (type1 * 16 + type2) = Some r
         ↔ table !! Z.to_nat (type2 * 16 + type1) = Some r).
Proof.
  intros H1 H2. destruct relations_table as (table & Htable & _ & _ & Hlook).
  exists table. split; [done|].
  destruct (Hlook type1 type2 H1 H2) as (r12 & Hr12 & ->).
  destruct (Hlook type2 type1 H2 H1) as (r21 & Hr21 & ->).
  destruct (relation_converse type1 type2) as (HL & HD & HS & HI).
  rewrite Hr12, Hr21 in HL, HD, HS, HI.
  assert (HSR : ∀ x y : string,
    Some x = Some y ↔ (Return x : py string) = Return y).
  { intros x y. split; by intros [= ->]. }
  split.
  - by rewrite !HSR.
  - intros r Hr. rewrite !elem_of_cons, elem_of_nil in Hr. rewrite !HSR.
    destruct Hr as [-> | [-> | [-> | []]]]; done.
Qed.

Lemma relations_transpose_witness :
  (TypeTag BOOL ∧ TypeTag LIST)
  ∧ ∃ table,
      relations = Return table
      ∧ (table !! Z.to_nat (BOOL * 16 + LIST) = Some Less
           ↔ table !! Z.to_nat (LIST * 16 + BOOL) = Some Greater).
Proof.
  assert (H1 : TypeTag BOOL) by (unfold TypeTag, BOOL; lia).
  assert (H2 : TypeTag LIST) by (unfold TypeTag, LIST; lia).
  split; [done|].
  destruct (relations_transpose BOOL LIST H1 H2) as (table & Ht & HL & _).
  exists table. split; [exact Ht | exact HL].
Defined.

(** ** The printed text *)

Lemma append_nil_l (r : string) : "" +:+ r = r.
Proof. reflexivity. Qed.

Lemma append_cons c (s r : string) : String c s +:+ r = String c (s +:+ r).
Proof. reflexivity. Qed.

Lemma append_nil_r (s : string) : s +:+ "" = s.
Proof. induction s as [|c s IH]; [done|]. by rewrite append_cons, IH. Qed.

Lemma concat_cons x xs :
  String.concat ", " (x :: xs) = x +:+ after_name xs.
Proof. destruct xs; [by rewrite append_nil_r | done]. Qed.

Lemma after_name_cut xs :
  after_name xs = ""
  ∨ ∃ r, after_name xs = String (Ascii.ascii_of_nat 44) r.
Proof. destruct xs; [by left | right; by eexists]. Qed.

Lemma comma_free_cut x y r1 r2 :
  comma_free x = true → comma_free y = true →
  (r1 = "" ∨ ∃ r, r1 = String (Ascii.ascii_of_nat 44) r) →
  (r2 = "" ∨ ∃ r, r2 = String (Ascii.ascii_of_nat 44) r) →
  x +:+ r1 = y +:+ r2 → x = y ∧ r1 = r2.
Proof.
  revert y. induction x as [|c x IH]; intros [|d y] Hx Hy T1 T2;
    rewrite ?append_nil_l, ?append_cons; intros Heq.
  - done.
  - exfalso. destruct T1 as [-> | [r ->]]; [done|].
    injection Heq as <- _. cbn in Hy. by rewrite Ascii.eqb_refl in Hy.
  - exfalso. destruct T2 as [-> | [r ->]]; [done|].
    injection Heq as -> _. cbn in Hx. by rewrite Ascii.eqb_refl in Hx.
  - injection Heq as -> Heq. cbn in Hx, Hy.
    apply andb_true_iff in Hx as [_ Hx]. apply andb_true_iff in Hy as [_ Hy].
    destruct (IH y Hx Hy T1 T2 Heq) as [-> ->]. done.
Qed.

Lemma concat_comma_free_inj l1 l2 :
  l1 ≠ [] → l2 ≠ [] →
  Forall (λ s, comma_free s = true) l1 →
  Forall (λ s, comma_free s = true) l2 →
  String.concat ", " l1 = String.concat ", " l2 → l1 = l2.
Proof.
  revert l2. induction l1 as [|x xs IH]; [done|].
  intros [|y ys]; [done|]. intros _ _ H1 H2. rewrite !concat_cons.
  apply Forall_cons in H1 as [Hx H1]. apply Forall_cons in H2 as [Hy H2].
  intros [-> Hrest]%comma_free_cut;
    [|done|done|apply after_name_cut|apply after_name_cut].
  f_equal. destruct xs as [|x' xs], ys as [|y' ys]; [done|done|done|].
  apply IH; [done|done|done|done|].
  cbn [after_name] in Hrest. by apply (inj (String.append ", ")) in Hrest.
Qed.

Lemma relation_names_comma_free r :
  r ∈ [Less; Greater; CompareSameType; CompareDifferentTypes; Invalid] →
  comma_free r = true.
Proof.
  rewrite !elem_of_cons, elem_of_nil.
  intros [-> | [-> | [-> | [-> | [-> | []]]]]]; by vm_compute.
Qed.

(** X9: [main] does not raise; it prints the declaration's head, the 256
    entries of the grid joined by [", "], a closing brace and a newline;
    and the joined entries can be read back: a non-empty list of names
    without commas whose join is the printed one is the grid itself. *)
Theorem main_output_unambiguous names :
  names ≠ [] → Forall (λ s, comma_free s = true) names →
  ∃ table,
    relations = Return table
    ∧ length table = 256%nat
    ∧ main = Return (("var typesRelation [256]TypesRelation{"
                        +:+ String.concat ", " table +:+ "}") +:+ newline)
    ∧ (String.concat ", " names = String.concat ", " table → names = table).
Proof.
  intros Hne Hnames.
  destruct relations_table as (table & Htable & Hlen & Hall & _).
  exists table. split_and!; [done|done| |].
  - unfold main. by rewrite Htable.
  - apply concat_comma_free_inj; [done| |done|].
    + intros ->. cbn in Hlen. lia.
    + eapply Forall_impl; [exact Hall|]. apply relation_names_comma_free.
Qed.

Lemma main_output_unambiguous_witness :
  ([Less; Greater] ≠ [] ∧ Forall (λ s, comma_free s = true) [Less; Greater])
  ∧ ∃ table,
      relations = Return table
      ∧ (String.concat ", " [Less; Greater] = String.concat ", " table →
         [Less; Greater] = table).
Proof.
  assert (Hne : [Less; Greater] ≠ []) by done.
  assert (Hall : Forall (λ s, comma_free s = true) [Less; Greater])
    by (repeat constructor).
  split; [done|].
  destruct (main_output_unambiguous [Less; Greater] Hne Hall)
    as (table & Ht & _ & _ & Hinj).
  exists table. split; [exact Ht | exact Hinj].
Defined.

(** ** What [numeric] means for the grid *)

Lemma numeric_supported t : numeric t = true → not_supported t = false.
Proof.
  intros Hn. generalize Hn. generalize (numeric_TypeTag t Hn). clear Hn.
  revert t. apply (all_tags (λ t, numeric t = true → not_supported t = false)).
  by vm_compute.
Qed.

(** X10: the four numeric tags are one category for every other tag:
    against an integer that is not numeric, any two numeric tags get the
    same relation, as first and as second argument. *)
Theorem relation_numeric_uniform a a' t :
  numeric a = true → numeric a' = true → numeric t = false →
  relation a t = relation a' t ∧ relation t a = relation t a'.
Proof.
  intros Ha Ha' Ht.
  pose proof (numeric_TypeTag a Ha) as Hta.
  pose proof (numeric_TypeTag a' Ha') as Hta'.
  destruct (decide (0 ≤ t ≤ 15)) as [Htt | Hout].
  - assert (Hall : ∀ x y, TypeTag x → TypeTag y →
      Forall (λ z, numeric x = true → numeric y = true → numeric z = false →
                   relation x z = relation y z ∧ relation z x = relation z y)
             (range 16)).
    { apply (all_tag_pairs (λ x y,
        Forall (λ z, numeric x = true → numeric y = true →
                     numeric z = false →
                     relation x z = relation y z
                     ∧ relation z x = relation z y) (range 16))).
      by vm_compute. }
    specialize (Hall a a' Hta Hta'). rewrite Forall_forall in Hall.
    by apply (Hall t); [apply TypeTag_range|..].
  - assert (Hne : ∀ x, TypeTag x → x ≠ t ∧ t ≠ x).
    { intros x Hx. split; intros ->; by apply Hout. }
    rewrite (relation_outside a t), (relation_outside a' t),
      (relation_outside t a), (relation_outside t a')
      by ((left; exact Hout) || (right; exact Hout)).
    rewrite (numeric_supported a Ha), (numeric_supported a' Ha').
    rewrite orb_false_r. cbn [orb].
    destruct (Hne a Hta) as [H1 H2]. destruct (Hne a' Hta') as [H3 H4].
    by rewrite !bool_decide_eq_false_2.
Qed.

Lemma relation_numeric_uniform_witness :
  (numeric INT = true ∧ numeric FLOAT = true ∧ numeric STRING = false)
  ∧ relation INT STRING = relation FLOAT STRING.
Proof.
  assert (H1 : numeric INT = true) by done.
  assert (H2 : numeric FLOAT = true) by done.
  assert (H3 : numeric STRING = false) by done.
  split; [done|]. exact (proj1 (relation_numeric_uniform INT FLOAT STRING H1 H2 H3)).
Defined.
